(** * salt/states/win_servermanager.py

    A shallow embedding of the state module that converges a Windows
    feature to "installed" or "removed" through the execution module
    [win_servermanager], and the properties of its two state functions.

    The Python functions read three names from the module's global
    namespace: [__salt__] (the table of execution functions), [__opts__]
    (the option dictionary, of which only ['test'] is read) and [salt]
    (for [salt.utils.compare_dicts]).  The embedding passes that namespace
    explicitly.  The execution functions act on the machine, so every
    computation threads a world, records the calls it places, and either
    returns a value or raises a Python exception. *)

From Stdlib Require Import ZArith.
From stdpp Require Import base strings gmap pretty.

Module WinServermanager.

(** ** Data *)

(** The dictionary [list_installed] returns: feature key to display name.
    The state functions only test keys for membership and hand the whole
    dictionary to the diff utility. *)
Abbreviation FeatureStatus := (gmap string string).

(** The dictionary [install] and [remove] return, with the three keys the
    state functions read. *)
Record OperationResult : Type := mkOperationResult {
  Success : bool;
  DisplayName : string;
  ExitCode : Z
}.

(** A value stored under a key of [ret['changes']]: the raw operation
    result (line 72), or an entry [{'old': .., 'new': ..}] of the diff. *)
Inductive change : Type :=
| Feature (status : OperationResult)
| Delta (old new : string).

Abbreviation Changes := (gmap string change).

(** The dictionary [ret]; [result] is [True], [False] or [None]. *)
Record Ret : Type := mkRet {
  ret_name : string;
  ret_result : option bool;
  ret_changes : Changes;
  ret_comment : string
}.

Definition set_result (r : Ret) (v : option bool) : Ret :=
  mkRet (ret_name r) v (ret_changes r) (ret_comment r).

Definition set_changes (r : Ret) (c : Changes) : Ret :=
  mkRet (ret_name r) (ret_result r) c (ret_comment r).

Definition set_comment (r : Ret) (s : string) : Ret :=
  mkRet (ret_name r) (ret_result r) (ret_changes r) s.

(** The exceptions the two functions can raise. *)
Inductive exn : Type :=
| KeyError (key : string)
| NameError (ident : string).

(** A call placed on the execution module. *)
Inductive call : Type :=
| CallListInstalled
| CallInstall (name : string) (recurse : bool)
| CallRemove (name : string).

Definition is_mutating (c : call) : bool :=
  match c with
  | CallListInstalled => false
  | CallInstall _ _ | CallRemove _ => true
  end.

(** Number of mutating calls (install or remove) in a call log. *)
Definition mutations (log : list call) : nat :=
  length (List.filter is_mutating log).

(** ** Python string helpers *)

(** [str(b)] for a Python bool, as [str.format] prints it. *)
Definition py_bool (b : bool) : string := if b then "True" else "False".

(** [sub in s] for two Python strings. *)
Fixpoint py_in (sub s : string) : bool :=
  String.prefix sub s ||
  match s with
  | EmptyString => false
  | String _ rest => py_in sub rest
  end.

Section Machine.

(** The state of the machine the execution module acts on. *)
Context {World : Type}.

(** ** The global namespace *)

(** [__salt__], restricted to the three entries the module calls.  Each
    entry may read and change the machine.  The entries are present and
    their calls return: a key missing from [__salt__] and an exception
    raised inside the execution module are outside this model. *)
Record SaltTable : Type := mkSaltTable {
  list_installed : World → FeatureStatus * World;
  install : string → bool → World → OperationResult * World;
  remove : string → World → OperationResult * World
}.

(** The names the two functions resolve in the module's globals.
    [g_salt] is the binding of the name [salt], given by what
    [salt.utils.compare_dicts] denotes under it; a name is unbound when
    nothing in the module binds it. *)
Record Globals : Type := mkGlobals {
  g___salt__ : SaltTable;
  g___opts___test : bool;
  g_salt : option (FeatureStatus → FeatureStatus → Changes)
}.

(** The namespace the functions of this file run in.  The loader injects
    [__salt__] and [__opts__]; the file itself binds [__virtual__],
    [installed] and [removed] and has no import statement, so [salt] is
    not bound. *)
Definition module_globals (tbl : SaltTable) (test : bool) : Globals :=
  mkGlobals tbl test None.

(** ** Computations *)

(** A computation starts in a world and ends with an exception or a
    value, in a new world, having placed a list of calls. *)
Definition M (A : Type) : Type := World → (exn + A) * World * list call.

Definition pure {A} (a : A) : M A := λ w, (inr a, w, []).

Definition raise {A} (e : exn) : M A := λ w, (inl e, w, []).

Definition bind {A B} (m : M A) (k : A → M B) : M B := λ w,
  match m w with
  | (inl e, w1, l1) => (inl e, w1, l1)
  | (inr a, w1, l1) =>
      match k a w1 with
      | (o, w2, l2) => (o, w2, l1 ++ l2)
      end
  end.

#[local] Instance M_ret : MRet M := @pure.
#[local] Instance M_bind : MBind M := λ A B k m, bind m k.

(** [__salt__['win_servermanager.list_installed']()] *)
Definition call_list_installed (g : Globals) : M FeatureStatus := λ w,
  let '(st, w1) := list_installed (g___salt__ g) w in
  (inr st, w1, [CallListInstalled]).

(** [__salt__['win_servermanager.install'](name, recurse)] *)
Definition call_install (g : Globals) (name : string) (recurse : bool)
  : M OperationResult := λ w,
  let '(st, w1) := install (g___salt__ g) name recurse w in
  (inr st, w1, [CallInstall name recurse]).

(** [__salt__['win_servermanager.remove'](name)] *)
Definition call_remove (g : Globals) (name : string)
  : M OperationResult := λ w,
  let '(st, w1) := remove (g___salt__ g) name w in
  (inr st, w1, [CallRemove name]).

(** Resolving [salt.utils.compare_dicts]: a [NameError] when [salt] is
    unbound. *)
Definition salt_utils_compare_dicts (g : Globals)
  : M (FeatureStatus → FeatureStatus → Changes) :=
  match g_salt g with
  | Some compare_dicts => mret compare_dicts
  | None => raise (NameError "salt")
  end.

(** [ret['changes']['feature']['ExitCode']]: two dictionary lookups, each
    a [KeyError] on a missing key. *)
Definition changes_feature_ExitCode (r : Ret) : M Z :=
  match ret_changes r !! "feature" with
  | None => raise (KeyError "feature")
  | Some (Feature status) => mret (ExitCode status)
  | Some (Delta _ _) => raise (KeyError "ExitCode")
  end.

(** ** The state functions *)

(** Lines 52-59: the outcome of the first branch.  [inl] continues with
    the installation, [inr] is the early [return ret]. *)
Definition installed_decide (old : FeatureStatus) (name : string)
  (recurse force : bool) (ret : Ret) : Ret + Ret :=
  if decide (old !! name = None) then
    inl (set_comment ret
           (name +:+ " will be installed recurse=" +:+ py_bool recurse))
  else if force && recurse then
    inl (set_comment ret
           (name +:+ " already installed but might install sub-features"))
  else
    inr (set_comment ret
           ("The feature " +:+ name +:+ " is already installed")).

(** [installed(name, recurse=False, force=False)], lines 46-77. *)
Definition installed (g : Globals) (name : string) (recurse force : bool)
  : M Ret :=
  let ret := mkRet name (Some true) ∅ "" in
  old ← call_list_installed g;
  match installed_decide old name recurse force ret with
  | inr ret => mret ret
  | inl ret =>
      if g___opts___test g then mret (set_result ret None)
      else
        status ← call_install g name recurse;
        let ret := set_result ret (Some (Success status)) in
        ret ← (if negb (Success status) then
                 code ← changes_feature_ExitCode ret;
                 mret (set_comment ret
                         ("Failed to install " +:+ name +:+ ": "
                            +:+ pretty code))
               else mret ret);
        let ret :=
          if negb (py_in "already installed" (DisplayName status)) then
            set_changes ret (<["feature" := Feature status]> (ret_changes ret))
          else ret in
        new ← call_list_installed g;
        compare_dicts ← salt_utils_compare_dicts g;
        mret (set_changes ret (compare_dicts old new))
  end.

(** [removed(name)], lines 104-130. *)
Definition removed (g : Globals) (name : string) : M Ret :=
  let ret := mkRet name (Some true) ∅ "" in
  old ← call_list_installed g;
  if decide (is_Some (old !! name)) then
    let ret := set_comment ret (name +:+ " will be removed") in
    if g___opts___test g then mret (set_result ret None)
    else
      status ← call_remove g name;
      let ret := set_result ret (Some (Success status)) in
      ret ← (if negb (Success status) then
               code ← changes_feature_ExitCode ret;
               mret (set_comment ret
                       ("Failed to uninstall the feature " +:+ pretty code))
             else mret ret);
      new ← call_list_installed g;
      compare_dicts ← salt_utils_compare_dicts g;
      mret (set_changes ret (compare_dicts old new))
  else
    mret (set_comment ret ("The feature " +:+ name +:+ " is not installed")).

(** ** Vocabulary of the statements *)

(** The snapshot the first [list_installed] call of an invocation reads,
    and the world it leaves. *)
Definition before (tbl : SaltTable) (w : World) : FeatureStatus :=
  (list_installed tbl w).1.

Definition after_read (tbl : SaltTable) (w : World) : World :=
  (list_installed tbl w).2.

(** The comment chosen at lines 54 and 56 when [installed] goes on. *)
Definition install_comment (old : FeatureStatus) (name : string)
  (recurse : bool) : string :=
  if decide (old !! name = None)
  then name +:+ " will be installed recurse=" +:+ py_bool recurse
  else name +:+ " already installed but might install sub-features".

(** [installed] goes past line 59. *)
Definition install_wanted (old : FeatureStatus) (name : string)
  (recurse force : bool) : bool :=
  bool_decide (old !! name = None) || (force && recurse).

(** Lines 74-77 once [new] is read: the diff when [salt] is bound, a
    [NameError] otherwise. *)
Definition diff_step (g : Globals) (old new : FeatureStatus) (ret : Ret)
  : exn + Ret :=
  match g_salt g with
  | Some compare_dicts => inr (set_changes ret (compare_dicts old new))
  | None => inl (NameError "salt")
  end.

End Machine.

Arguments SaltTable : clear implicits.
Arguments Globals : clear implicits.
Arguments M : clear implicits.

(** ** A simulated feature manager

    The world is the dictionary of installed features.  [install] and
    [remove] answer with a fixed operation result and change the world
    only when that result reports success. *)
Definition sim_table (status : OperationResult)
  : SaltTable (gmap string string) :=
  mkSaltTable
    (λ w, (w, w))
    (λ name _ w,
       (status, if Success status then <[name := DisplayName status]> w else w))
    (λ name w, (status, if Success status then delete name w else w)).

Definition iis_ok : OperationResult :=
  mkOperationResult true "Web Server (IIS)" 0.

Definition iis_noop : OperationResult :=
  mkOperationResult true "Web Server (IIS) already installed" 0.

Definition iis_failed : OperationResult :=
  mkOperationResult false "Web Server (IIS)" 1603.

Definition web : string := "Web-Server".

Definition with_iis : gmap string string :=
  {[ web := "Web Server (IIS)" ]}.

(** ** Loading the module *)

(** What [__virtual__] returns: a module name, or [False]. *)
Inductive virtual_result : Type :=
| VirtualName (modname : string)
| VirtualFalse.

(** [__virtual__()], lines 7-11.  Only the keys of [__salt__] are read. *)
Definition __virtual__ (salt_keys : gset string) : virtual_result :=
  if decide ("win_servermanager.install" ∈ salt_keys)
  then VirtualName "win_servermanager"
  else VirtualFalse.

(** A diff of two snapshots for the simulated runs: a key on one side
    only is paired with the empty string, a key whose value changed with
    both values, an unchanged key is left out. *)
Definition sim_compare (old new : gmap string string) : Changes :=
  merge (λ o n,
           match o, n with
           | Some a, Some b => if decide (a = b) then None else Some (Delta a b)
           | Some a, None => Some (Delta a "")
           | None, Some b => Some (Delta "" b)
           | None, None => None
           end) old new.

(** The same installation as [iis_ok], reporting exit code 3010. *)
Definition iis_reboot : OperationResult :=
  mkOperationResult true "Web Server (IIS)" 3010.

(** The keys of [__salt__] when the execution module is fully loaded. *)
Definition full_keys : gset string :=
  {[ "win_servermanager.install"; "win_servermanager.list_installed";
     "win_servermanager.remove" ]}.

(** ** The shapes of a run *)

Section RunShapes.

Context {World : Type}.
Implicit Types (g : Globals World) (w : World).
Implicit Types (name : string) (recurse force : bool).

(** The four ways a run of [installed] can go. *)
Inductive installed_run g name recurse force w
  : (exn + Ret) * World * list call → Prop :=
| InstalledSatisfied :
    is_Some (before (g___salt__ g) w !! name) →
    force && recurse = false →
    installed_run g name recurse force w
      (inr (mkRet name (Some true) ∅
              ("The feature " +:+ name +:+ " is already installed")),
       after_read (g___salt__ g) w, [CallListInstalled])
| InstalledDryRun :
    install_wanted (before (g___salt__ g) w) name recurse force = true →
    g___opts___test g = true →
    installed_run g name recurse force w
      (inr (mkRet name None ∅
              (install_comment (before (g___salt__ g) w) name recurse)),
       after_read (g___salt__ g) w, [CallListInstalled])
| InstalledSuccess status w2 :
    install_wanted (before (g___salt__ g) w) name recurse force = true →
    g___opts___test g = false →
    install (g___salt__ g) name recurse (after_read (g___salt__ g) w)
      = (status, w2) →
    Success status = true →
    installed_run g name recurse force w
      (diff_step g (before (g___salt__ g) w) (before (g___salt__ g) w2)
         (mkRet name (Some true) ∅
            (install_comment (before (g___salt__ g) w) name recurse)),
       after_read (g___salt__ g) w2,
       [CallListInstalled; CallInstall name recurse; CallListInstalled])
| InstalledFailure status w2 :
    install_wanted (before (g___salt__ g) w) name recurse force = true →
    g___opts___test g = false →
    install (g___salt__ g) name recurse (after_read (g___salt__ g) w)
      = (status, w2) →
    Success status = false →
    installed_run g name recurse force w
      (inl (KeyError "feature"), w2,
       [CallListInstalled; CallInstall name recurse]).

(** The four ways a run of [removed] can go. *)
Inductive removed_run g name w : (exn + Ret) * World * list call → Prop :=
| RemovedSatisfied :
    before (g___salt__ g) w !! name = None →
    removed_run g name w
      (inr (mkRet name (Some true) ∅
              ("The feature " +:+ name +:+ " is not installed")),
       after_read (g___salt__ g) w, [CallListInstalled])
| RemovedDryRun :
    is_Some (before (g___salt__ g) w !! name) →
    g___opts___test g = true →
    removed_run g name w
      (inr (mkRet name None ∅ (name +:+ " will be removed")),
       after_read (g___salt__ g) w, [CallListInstalled])
| RemovedSuccess status w2 :
    is_Some (before (g___salt__ g) w !! name) →
    g___opts___test g = false →
    remove (g___salt__ g) name (after_read (g___salt__ g) w) = (status, w2) →
    Success status = true →
    removed_run g name w
      (diff_step g (before (g___salt__ g) w) (before (g___salt__ g) w2)
         (mkRet name (Some true) ∅ (name +:+ " will be removed")),
       after_read (g___salt__ g) w2,
       [CallListInstalled; CallRemove name; CallListInstalled])
| RemovedFailure status w2 :
    is_Some (before (g___salt__ g) w !! name) →
    g___opts___test g = false →
    remove (g___salt__ g) name (after_read (g___salt__ g) w) = (status, w2) →
    Success status = false →
    removed_run g name w
      (inl (KeyError "feature"), w2, [CallListInstalled; CallRemove name]).

End RunShapes.

(** ** Stepping through a computation *)

Ltac unfold_M :=
  unfold installed, removed, installed_decide, call_list_installed,
    call_install, call_remove, salt_utils_compare_dicts,
    changes_feature_ExitCode, module_globals,
    mbind, M_bind, bind, mret, M_ret, pure, raise; simpl.

Ltac step_calls :=
  repeat match goal with
  | |- context [list_installed ?t ?w] =>
      let old := fresh "snap" in let w' := fresh "w" in
      let E := fresh "Eread" in
      destruct (list_installed t w) as [old w'] eqn:E; simpl in *
  | |- context [install ?t ?n ?r ?w] =>
      let st := fresh "status" in let w' := fresh "w" in
      let E := fresh "Einstall" in
      destruct (install t n r w) as [st w'] eqn:E; simpl in *
  | |- context [remove ?t ?n ?w] =>
      let st := fresh "status" in let w' := fresh "w" in
      let E := fresh "Eremove" in
      destruct (remove t n w) as [st w'] eqn:E; simpl in *
  end.

Section Properties.

Context {World : Type}.
Implicit Types (tbl : SaltTable World) (g : Globals World) (w : World).
Implicit Types (name : string) (recurse force test : bool).

(** *** Early returns *)

Lemma installed_short_circuit g name recurse force w :
  is_Some (before (g___salt__ g) w !! name) →
  force && recurse = false →
  installed g name recurse force w =
    (inr (mkRet name (Some true) ∅
            ("The feature " +:+ name +:+ " is already installed")),
     after_read (g___salt__ g) w, [CallListInstalled]).
Proof.
  unfold before, after_read. intros [dn Hin] Hfr. unfold_M. step_calls.
  rewrite Hin, Hfr. destruct (decide _) as [?|_]; [done|]. reflexivity.
Qed.

Lemma removed_short_circuit g name w :
  before (g___salt__ g) w !! name = None →
  removed g name w =
    (inr (mkRet name (Some true) ∅
            ("The feature " +:+ name +:+ " is not installed")),
     after_read (g___salt__ g) w, [CallListInstalled]).
Proof.
  unfold before, after_read. intros Hout. unfold_M. step_calls.
  rewrite Hout. destruct (decide _) as [[? ?]|_]; [done|]. reflexivity.
Qed.

Lemma installed_decide_wanted (old : FeatureStatus) name recurse force ret :
  install_wanted old name recurse force = true →
  installed_decide old name recurse force ret =
    inl (set_comment ret (install_comment old name recurse)).
Proof.
  unfold install_wanted, installed_decide, install_comment.
  case_bool_decide; destruct (decide _); try done; simpl.
  intros ->. reflexivity.
Qed.

Lemma installed_decide_unwanted (old : FeatureStatus) name recurse force ret :
  install_wanted old name recurse force = false →
  installed_decide old name recurse force ret =
    inr (set_comment ret
           ("The feature " +:+ name +:+ " is already installed")).
Proof.
  unfold install_wanted, installed_decide.
  case_bool_decide; destruct (decide _); try done; simpl.
  intros ->. reflexivity.
Qed.

(** *** Dry run *)

Lemma installed_dry_run g name recurse force w :
  install_wanted (before (g___salt__ g) w) name recurse force = true →
  g___opts___test g = true →
  installed g name recurse force w =
    (inr (mkRet name None ∅
            (install_comment (before (g___salt__ g) w) name recurse)),
     after_read (g___salt__ g) w, [CallListInstalled]).
Proof.
  unfold before, after_read. intros Hw Ht. unfold installed.
  unfold call_list_installed, mbind, M_bind, bind.
  destruct (list_installed _ w) as [old w1]; simpl in *.
  rewrite (installed_decide_wanted _ _ _ _ _ Hw), Ht. reflexivity.
Qed.

Lemma removed_dry_run g name w :
  is_Some (before (g___salt__ g) w !! name) →
  g___opts___test g = true →
  removed g name w =
    (inr (mkRet name None ∅ (name +:+ " will be removed")),
     after_read (g___salt__ g) w, [CallListInstalled]).
Proof.
  unfold before, after_read. intros Hin Ht. unfold_M. step_calls.
  destruct (decide _) as [_|?]; [|done]. rewrite Ht. reflexivity.
Qed.

(** *** The mutating path *)

Lemma installed_mutation_success g name recurse force w status w2 :
  install_wanted (before (g___salt__ g) w) name recurse force = true →
  g___opts___test g = false →
  install (g___salt__ g) name recurse (after_read (g___salt__ g) w)
    = (status, w2) →
  Success status = true →
  installed g name recurse force w =
    (diff_step g (before (g___salt__ g) w) (before (g___salt__ g) w2)
       (mkRet name (Some true) ∅
          (install_comment (before (g___salt__ g) w) name recurse)),
     after_read (g___salt__ g) w2,
     [CallListInstalled; CallInstall name recurse; CallListInstalled]).
Proof.
  unfold before, after_read, diff_step. intros Hw Ht Hi Hs.
  unfold installed, call_list_installed, call_install, mbind, M_bind, bind.
  destruct (list_installed _ w) as [old w1]; simpl in *.
  rewrite (installed_decide_wanted _ _ _ _ _ Hw), Ht, Hi, Hs. simpl.
  destruct (list_installed _ w2) as [new w3]; simpl.
  unfold salt_utils_compare_dicts.
  destruct (g_salt g), (negb _); reflexivity.
Qed.

Lemma installed_mutation_failure g name recurse force w status w2 :
  install_wanted (before (g___salt__ g) w) name recurse force = true →
  g___opts___test g = false →
  install (g___salt__ g) name recurse (after_read (g___salt__ g) w)
    = (status, w2) →
  Success status = false →
  installed g name recurse force w =
    (inl (KeyError "feature"), w2,
     [CallListInstalled; CallInstall name recurse]).
Proof.
  unfold before, after_read. intros Hw Ht Hi Hs.
  unfold installed, call_list_installed, call_install, mbind, M_bind, bind.
  destruct (list_installed _ w) as [old w1]; simpl in *.
  rewrite (installed_decide_wanted _ _ _ _ _ Hw), Ht, Hi, Hs. reflexivity.
Qed.

Lemma removed_mutation_success g name w status w2 :
  is_Some (before (g___salt__ g) w !! name) →
  g___opts___test g = false →
  remove (g___salt__ g) name (after_read (g___salt__ g) w) = (status, w2) →
  Success status = true →
  removed g name w =
    (diff_step g (before (g___salt__ g) w) (before (g___salt__ g) w2)
       (mkRet name (Some true) ∅ (name +:+ " will be removed")),
     after_read (g___salt__ g) w2,
     [CallListInstalled; CallRemove name; CallListInstalled]).
Proof.
  unfold before, after_read, diff_step. intros Hin Ht Hr Hs.
  unfold removed, call_list_installed, call_remove, mbind, M_bind, bind.
  destruct (list_installed _ w) as [old w1]; simpl in *.
  destruct (decide _) as [_|?]; [|done].
  rewrite Ht, Hr, Hs. simpl.
  destruct (list_installed _ w2) as [new w3]; simpl.
  unfold salt_utils_compare_dicts.
  destruct (g_salt g); reflexivity.
Qed.

Lemma removed_mutation_failure g name w status w2 :
  is_Some (before (g___salt__ g) w !! name) →
  g___opts___test g = false →
  remove (g___salt__ g) name (after_read (g___salt__ g) w) = (status, w2) →
  Success status = false →
  removed g name w =
    (inl (KeyError "feature"), w2, [CallListInstalled; CallRemove name]).
Proof.
  unfold before, after_read. intros Hin Ht Hr Hs.
  unfold removed, call_list_installed, call_remove, mbind, M_bind, bind.
  destruct (list_installed _ w) as [old w1]; simpl in *.
  destruct (decide _) as [_|?]; [|done].
  rewrite Ht, Hr, Hs. reflexivity.
Qed.

Lemma install_wanted_absent (old : FeatureStatus) name recurse force :
  old !! name = None → install_wanted old name recurse force = true.
Proof. intros H. unfold install_wanted. by rewrite bool_decide_eq_true_2. Qed.

Lemma install_wanted_spec (old : FeatureStatus) name recurse force :
  install_wanted old name recurse force = true ↔
  old !! name = None ∨ (force = true ∧ recurse = true).
Proof.
  unfold install_wanted. rewrite orb_true_iff, andb_true_iff.
  by rewrite bool_decide_eq_true.
Qed.

(** *** Counting the mutating calls *)

(** The log of every run of [installed] has one of three shapes. *)
Lemma installed_log g name recurse force w :
  let log := (installed g name recurse force w).2 in
  log = [CallListInstalled] ∨
  (install_wanted (before (g___salt__ g) w) name recurse force = true ∧
   g___opts___test g = false ∧
   (log = [CallListInstalled; CallInstall name recurse] ∨
    log = [CallListInstalled; CallInstall name recurse; CallListInstalled])).
Proof.
  simpl.
  destruct (install_wanted (before (g___salt__ g) w) name recurse force)
    eqn:Hw.
  - destruct (g___opts___test g) eqn:Ht.
    + left. by rewrite (installed_dry_run _ _ _ _ _ Hw Ht).
    + right. do 2 (split; [done|]).
      destruct (install (g___salt__ g) name recurse
                  (after_read (g___salt__ g) w)) as [status w2] eqn:Hi.
      destruct (Success status) eqn:Hs.
      * right. by rewrite (installed_mutation_success _ _ _ _ _ _ _ Hw Ht Hi Hs).
      * left. by rewrite (installed_mutation_failure _ _ _ _ _ _ _ Hw Ht Hi Hs).
  - left. unfold installed, call_list_installed, mbind, M_bind, bind.
    unfold before in Hw.
    destruct (list_installed _ w) as [old w1]; simpl in *.
    by rewrite (installed_decide_unwanted _ _ _ _ _ Hw).
Qed.

Lemma removed_log g name w :
  let log := (removed g name w).2 in
  log = [CallListInstalled] ∨
  (is_Some (before (g___salt__ g) w !! name) ∧
   g___opts___test g = false ∧
   (log = [CallListInstalled; CallRemove name] ∨
    log = [CallListInstalled; CallRemove name; CallListInstalled])).
Proof.
  simpl.
  destruct (before (g___salt__ g) w !! name) as [dn|] eqn:Hin.
  - assert (Hsome : is_Some (before (g___salt__ g) w !! name)) by eauto.
    destruct (g___opts___test g) eqn:Ht.
    + left. by rewrite (removed_dry_run _ _ _ Hsome Ht).
    + right. do 2 (split; [done|]).
      destruct (remove (g___salt__ g) name (after_read (g___salt__ g) w))
        as [status w2] eqn:Hr.
      destruct (Success status) eqn:Hs.
      * right. by rewrite (removed_mutation_success _ _ _ _ _ Hsome Ht Hr Hs).
      * left. by rewrite (removed_mutation_failure _ _ _ _ _ Hsome Ht Hr Hs).
  - left. by rewrite (removed_short_circuit _ _ _ Hin).
Qed.

End Properties.

(** ** The stated properties *)

Section Claims.

Context {World : Type}.
Implicit Types (tbl : SaltTable World) (g : Globals World) (w : World).
Implicit Types (name : string) (recurse force test : bool).

(** C1.  The stated outcome (a report with [result = True] and
    [changes = diff(before, after)]) is not what the module produces.
    For a name absent from the before snapshot, dry-run off and an install
    that reports success, [installed] places exactly one install call,
    reads the after snapshot, and then raises [NameError] on [salt] at
    line 75: no report is returned. *)
Theorem installed_absent_success_raises_NameError
    tbl name recurse force w status w2 :
  before tbl w !! name = None →
  install tbl name recurse (after_read tbl w) = (status, w2) →
  Success status = true →
  let log := [CallListInstalled; CallInstall name recurse; CallListInstalled] in
  installed (module_globals tbl false) name recurse force w =
    (inl (NameError "salt"), after_read tbl w2, log)
  ∧ mutations log = 1.
Proof.
  intros Hout Hi Hs. simpl. split; [|reflexivity].
  apply (installed_mutation_success (module_globals tbl false)
           name recurse force w status w2); try done.
  by apply install_wanted_absent.
Qed.

(** C2.  The stated outcome (a report with [result = False] whose comment
    contains the exit code) is not what the module produces.  For a name
    absent from the before snapshot, dry-run off and an install that
    reports failure, [installed] places exactly one install call and then
    raises [KeyError] on ['feature'] at line 70, because [ret['changes']]
    is still empty there. *)
Theorem installed_absent_failure_raises_KeyError
    tbl name recurse force w status w2 :
  before tbl w !! name = None →
  install tbl name recurse (after_read tbl w) = (status, w2) →
  Success status = false →
  let log := [CallListInstalled; CallInstall name recurse] in
  installed (module_globals tbl false) name recurse force w =
    (inl (KeyError "feature"), w2, log)
  ∧ mutations log = 1.
Proof.
  intros Hout Hi Hs. simpl. split; [|reflexivity].
  apply (installed_mutation_failure (module_globals tbl false)
           name recurse force w status w2); try done.
  by apply install_wanted_absent.
Qed.

(** The two mutating paths in the module's own namespace, side by side:
    with dry-run off, a run that places the mutating call ends in
    [NameError] on [salt] at the diff step when the operation reports
    success, and in [KeyError] on ['feature'] at line 70 or 125, with
    the after snapshot not read, when it reports failure. *)
Theorem mutation_never_returns_a_report tbl name recurse force w :
  (before tbl w !! name = None ∨ (force = true ∧ recurse = true) →
   ∀ status w2,
     install tbl name recurse (after_read tbl w) = (status, w2) →
     installed (module_globals tbl false) name recurse force w =
       if Success status
       then (inl (NameError "salt"), after_read tbl w2,
             [CallListInstalled; CallInstall name recurse; CallListInstalled])
       else (inl (KeyError "feature"), w2,
             [CallListInstalled; CallInstall name recurse]))
  ∧
  (is_Some (before tbl w !! name) →
   ∀ status w2,
     remove tbl name (after_read tbl w) = (status, w2) →
     removed (module_globals tbl false) name w =
       if Success status
       then (inl (NameError "salt"), after_read tbl w2,
             [CallListInstalled; CallRemove name; CallListInstalled])
       else (inl (KeyError "feature"), w2,
             [CallListInstalled; CallRemove name])).
Proof.
  split.
  - intros Hw%install_wanted_spec status w2 Hi.
    destruct (Success status) eqn:Hs.
    + by apply (installed_mutation_success (module_globals tbl false)
                  name recurse force w status w2).
    + by apply (installed_mutation_failure (module_globals tbl false)
                  name recurse force w status w2).
  - intros Hin status w2 Hr.
    destruct (Success status) eqn:Hs.
    + by apply (removed_mutation_success (module_globals tbl false)
                  name w status w2).
    + by apply (removed_mutation_failure (module_globals tbl false)
                  name w status w2).
Qed.

(** C5.  For a name present in the before snapshot and not both [force]
    and [recurse], [installed] returns [result = True], [changes = {}]
    and the comment "The feature <name> is already installed", and places
    no mutating call. *)
Theorem installed_present_returns_already_installed
    g name recurse force w :
  is_Some (before (g___salt__ g) w !! name) →
  ¬ (force = true ∧ recurse = true) →
  ∃ w' log,
    installed g name recurse force w =
      (inr (mkRet name (Some true) ∅
              ("The feature " +:+ name +:+ " is already installed")),
       w', log)
    ∧ mutations log = 0.
Proof.
  intros Hin Hfr. eexists _, _. split.
  - apply installed_short_circuit; [done|].
    destruct force, recurse; try done. by destruct Hfr.
  - reflexivity.
Qed.

(** C6.  For a name that is not in the installed-features snapshot,
    [removed] returns a report with [result = True] and places no
    mutating call. *)
Theorem removed_absent_returns_true g name w :
  before (g___salt__ g) w !! name = None →
  ∃ ret w' log,
    removed g name w = (inr ret, w', log)
    ∧ ret_result ret = Some true
    ∧ mutations log = 0.
Proof.
  intros Hout. eexists _, _, _. split; [by apply removed_short_circuit|].
  done.
Qed.

(** C7.  With the dry-run flag set, whenever the snapshot calls for a
    change ([installed]: name absent, or [force] and [recurse]; [removed]:
    name present) the function returns at once with [result = None],
    [changes] still the empty dictionary, and no mutating call. *)
Theorem dry_run_returns_unknown g name recurse force w :
  g___opts___test g = true →
  (before (g___salt__ g) w !! name = None ∨ (force = true ∧ recurse = true) →
   ∃ ret,
     installed g name recurse force w =
       (inr ret, after_read (g___salt__ g) w, [CallListInstalled])
     ∧ ret_result ret = None ∧ ret_changes ret = ∅
     ∧ mutations [CallListInstalled] = 0)
  ∧
  (is_Some (before (g___salt__ g) w !! name) →
   ∃ ret,
     removed g name w =
       (inr ret, after_read (g___salt__ g) w, [CallListInstalled])
     ∧ ret_result ret = None ∧ ret_changes ret = ∅
     ∧ mutations [CallListInstalled] = 0).
Proof.
  intros Ht. split.
  - intros Hw%install_wanted_spec. eexists. split.
    + by apply installed_dry_run.
    + done.
  - intros Hin. eexists. split.
    + by apply removed_dry_run.
    + done.
Qed.

(** C8.  In every invocation of [installed] or [removed], whatever the
    outcome, at most one mutating call is placed; [installed] places one
    only when the name is absent from the before snapshot or when [force]
    and [recurse] are both set while it is present, and [removed] only
    when the name is present. *)
Theorem mutating_call_at_most_once g name recurse force w :
  (mutations (installed g name recurse force w).2 ≤ 1
   ∧ (mutations (installed g name recurse force w).2 ≠ 0 →
      before (g___salt__ g) w !! name = None
      ∨ (is_Some (before (g___salt__ g) w !! name)
         ∧ force = true ∧ recurse = true)))
  ∧
  (mutations (removed g name w).2 ≤ 1
   ∧ (mutations (removed g name w).2 ≠ 0 →
      is_Some (before (g___salt__ g) w !! name))).
Proof.
  split.
  - destruct (installed_log g name recurse force w)
      as [E | (Hw & _ & [E | E])]; simpl in E; rewrite E;
      unfold mutations; simpl.
    + split; [lia | done].
    + split; [lia | intros _].
      apply install_wanted_spec in Hw as [? | [? ?]]; [by left|].
      destruct (before (g___salt__ g) w !! name) eqn:Hl; [right | by left].
      eauto.
    + split; [lia | intros _].
      apply install_wanted_spec in Hw as [? | [? ?]]; [by left|].
      destruct (before (g___salt__ g) w !! name) eqn:Hl; [right | by left].
      eauto.
  - destruct (removed_log g name w)
      as [E | (Hin & _ & [E | E])]; simpl in E; rewrite E;
      unfold mutations; simpl.
    + split; [lia | done].
    + split; [lia | done].
    + split; [lia | done].
Qed.

(** C10.  Two calls of [installed name] (recurse and force off) in
    succession: whatever the first call did, if the status reader then
    lists [name], the second call returns the already-installed report,
    [result = True] with empty [changes], and places no mutating call. *)
Theorem installed_twice_is_already_satisfied g name w0 out1 w1 log1 :
  installed g name false false w0 = (out1, w1, log1) →
  is_Some (before (g___salt__ g) w1 !! name) →
  ∃ w2 log2,
    installed g name false false w1 =
      (inr (mkRet name (Some true) ∅
              ("The feature " +:+ name +:+ " is already installed")),
       w2, log2)
    ∧ mutations log2 = 0.
Proof.
  intros _ Hin. eexists _, _. split.
  - by apply installed_short_circuit.
  - reflexivity.
Qed.

End Claims.

(** ** Runs on the simulated feature manager *)

(** C3.  The two functions do raise past their boundary: on a machine
    where Web-Server is installed and the removal reports failure,
    [removed] raises [KeyError] on ['feature'] (line 125); where the
    removal reports success it raises [NameError] on [salt] (line 128).
    Neither run returns a report. *)
Theorem removed_raises_past_the_boundary :
  removed (module_globals (sim_table iis_failed) false) web with_iis =
    (inl (KeyError "feature"), with_iis,
     [CallListInstalled; CallRemove web])
  ∧
  removed (module_globals (sim_table iis_ok) false) web with_iis =
    (inl (NameError "salt"), ∅,
     [CallListInstalled; CallRemove web; CallListInstalled]).
Proof. split; vm_compute; reflexivity. Qed.

(** C9.  [installed] does not get to report the diff: with Web-Server
    installed and [force] and [recurse] set, the run ends in [NameError]
    on [salt] at line 75 both when line 72 recorded the operation result
    under ['feature'] and when the display name says "already installed"
    and line 72 was skipped. *)
Theorem installed_post_mutation_raises_NameError :
  installed (module_globals (sim_table iis_ok) false) web true true with_iis =
    (inl (NameError "salt"), with_iis,
     [CallListInstalled; CallInstall web true; CallListInstalled])
  ∧ py_in "already installed" (DisplayName iis_ok) = false
  ∧
  installed (module_globals (sim_table iis_noop) false) web true true with_iis =
    (inl (NameError "salt"),
     {[ web := "Web Server (IIS) already installed" ]},
     [CallListInstalled; CallInstall web true; CallListInstalled])
  ∧ py_in "already installed" (DisplayName iis_noop) = true.
Proof. repeat split; vm_compute; reflexivity. Qed.

(** C4.  Not every mutating invocation gets to the diff step: an install
    that reports failure places its mutating call and then stops at line
    70 with [KeyError] on ['feature'], not with [NameError], and the after
    snapshot of line 74 is never read.  Lines 71-75 follow line 70
    unconditionally, so the code means to go on to the diff step and
    misses it by the early read of [ret['changes']['feature']]. *)
Lemma failed_install_stops_before_diff_step :
  installed (module_globals (sim_table iis_failed) false) web false false ∅ =
    (inl (KeyError "feature"), ∅, [CallListInstalled; CallInstall web false])
  ∧ mutations [CallListInstalled; CallInstall web false] = 1
  ∧ KeyError "feature" ≠ NameError "salt".
Proof.
  split; [vm_compute; reflexivity | split; [reflexivity | discriminate]].
Qed.

Lemma installed_absent_success_raises_NameError_witness :
  installed (module_globals (sim_table iis_ok) false) web false false ∅ =
    (inl (NameError "salt"), with_iis,
     [CallListInstalled; CallInstall web false; CallListInstalled])
  ∧ mutations
      [CallListInstalled; CallInstall web false; CallListInstalled] = 1.
Proof.
  apply (installed_absent_success_raises_NameError
           (sim_table iis_ok) web false false ∅ iis_ok with_iis);
    reflexivity.
Defined.

Lemma installed_absent_failure_raises_KeyError_witness :
  installed (module_globals (sim_table iis_failed) false) web true false ∅ =
    (inl (KeyError "feature"), ∅, [CallListInstalled; CallInstall web true])
  ∧ mutations [CallListInstalled; CallInstall web true] = 1.
Proof.
  apply (installed_absent_failure_raises_KeyError
           (sim_table iis_failed) web true false ∅ iis_failed ∅);
    reflexivity.
Defined.

Lemma mutation_never_returns_a_report_witness :
  installed (module_globals (sim_table iis_ok) false) web true true with_iis =
    (inl (NameError "salt"), with_iis,
     [CallListInstalled; CallInstall web true; CallListInstalled])
  ∧
  removed (module_globals (sim_table iis_failed) false) web with_iis =
    (inl (KeyError "feature"), with_iis,
     [CallListInstalled; CallRemove web]).
Proof.
  destruct (mutation_never_returns_a_report
              (sim_table iis_ok) web true true with_iis) as [Hi _].
  destruct (mutation_never_returns_a_report
              (sim_table iis_failed) web true true with_iis) as [_ Hr].
  split.
  - apply (Hi (or_intror (conj eq_refl eq_refl)) iis_ok with_iis).
    reflexivity.
  - apply (Hr (ex_intro _ "Web Server (IIS)" eq_refl) iis_failed with_iis).
    reflexivity.
Defined.

Lemma installed_present_returns_already_installed_witness :
  ∃ w' log,
    installed (module_globals (sim_table iis_ok) false) web true false
      with_iis =
      (inr (mkRet web (Some true) ∅
              "The feature Web-Server is already installed"), w', log)
    ∧ mutations log = 0.
Proof.
  apply (installed_present_returns_already_installed
           (module_globals (sim_table iis_ok) false) web true false with_iis).
  - exists "Web Server (IIS)". reflexivity.
  - intros [H _]. discriminate H.
Defined.

Lemma removed_absent_returns_true_witness :
  ∃ ret w' log,
    removed (module_globals (sim_table iis_ok) false) web ∅ =
      (inr ret, w', log)
    ∧ ret_result ret = Some true
    ∧ mutations log = 0.
Proof.
  apply (removed_absent_returns_true
           (module_globals (sim_table iis_ok) false) web ∅).
  reflexivity.
Defined.

Lemma dry_run_returns_unknown_witness :
  (∃ ret,
     installed (module_globals (sim_table iis_ok) true) web false false ∅ =
       (inr ret, ∅, [CallListInstalled])
     ∧ ret_result ret = None ∧ ret_changes ret = ∅
     ∧ mutations [CallListInstalled] = 0)
  ∧
  (∃ ret,
     removed (module_globals (sim_table iis_ok) true) web with_iis =
       (inr ret, with_iis, [CallListInstalled])
     ∧ ret_result ret = None ∧ ret_changes ret = ∅
     ∧ mutations [CallListInstalled] = 0).
Proof.
  split.
  - apply (dry_run_returns_unknown
             (module_globals (sim_table iis_ok) true) web false false ∅
             eq_refl).
    left. reflexivity.
  - apply (dry_run_returns_unknown
             (module_globals (sim_table iis_ok) true) web false false with_iis
             eq_refl).
    exists "Web Server (IIS)". reflexivity.
Defined.

(** A first call that finds the feature and returns [result = True]
    leaves a machine whose reader lists it; the second call is again the
    already-installed return. *)
Lemma installed_twice_is_already_satisfied_witness :
  installed (module_globals (sim_table iis_ok) false) web false false
    with_iis =
    (inr (mkRet web (Some true) ∅
            "The feature Web-Server is already installed"),
     with_iis, [CallListInstalled])
  ∧
  ∃ w2 log2,
    installed (module_globals (sim_table iis_ok) false) web false false
      with_iis =
      (inr (mkRet web (Some true) ∅
              "The feature Web-Server is already installed"), w2, log2)
    ∧ mutations log2 = 0.
Proof.
  assert (H1 : installed (module_globals (sim_table iis_ok) false)
                 web false false with_iis =
               (inr (mkRet web (Some true) ∅
                       "The feature Web-Server is already installed"),
                with_iis, [CallListInstalled]))
    by (vm_compute; reflexivity).
  split; [exact H1|].
  apply (installed_twice_is_already_satisfied
           (module_globals (sim_table iis_ok) false) web
           with_iis _ with_iis [CallListInstalled] H1).
  exists "Web Server (IIS)". reflexivity.
Defined.

(** ** Further properties of the module *)

Section Runs.

Context {World : Type}.
Implicit Types (tbl : SaltTable World) (g : Globals World) (w : World).
Implicit Types (name : string) (recurse force test : bool).

Lemma install_wanted_false (old : FeatureStatus) name recurse force :
  install_wanted old name recurse force = false ↔
  is_Some (old !! name) ∧ force && recurse = false.
Proof.
  unfold install_wanted. rewrite orb_false_iff, bool_decide_eq_false.
  by rewrite <- not_eq_None_Some.
Qed.

Lemma installed_runs g name recurse force w :
  installed_run g name recurse force w (installed g name recurse force w).
Proof.
  destruct (install_wanted (before (g___salt__ g) w) name recurse force)
    eqn:Hw.
  - destruct (g___opts___test g) eqn:Ht.
    + rewrite (installed_dry_run _ _ _ _ _ Hw Ht). by constructor.
    + destruct (install (g___salt__ g) name recurse
                  (after_read (g___salt__ g) w)) as [status w2] eqn:Hi.
      destruct (Success status) eqn:Hs.
      * rewrite (installed_mutation_success _ _ _ _ _ _ _ Hw Ht Hi Hs).
        by econstructor.
      * rewrite (installed_mutation_failure _ _ _ _ _ _ _ Hw Ht Hi Hs).
        by econstructor.
  - apply install_wanted_false in Hw as [Hin Hfr].
    rewrite (installed_short_circuit _ _ _ _ _ Hin Hfr). by constructor.
Qed.

Lemma removed_runs g name w : removed_run g name w (removed g name w).
Proof.
  destruct (before (g___salt__ g) w !! name) as [dn|] eqn:Hin.
  - assert (Hsome : is_Some (before (g___salt__ g) w !! name)) by eauto.
    destruct (g___opts___test g) eqn:Ht.
    + rewrite (removed_dry_run _ _ _ Hsome Ht). by constructor.
    + destruct (remove (g___salt__ g) name (after_read (g___salt__ g) w))
        as [status w2] eqn:Hr.
      destruct (Success status) eqn:Hs.
      * rewrite (removed_mutation_success _ _ _ _ _ Hsome Ht Hr Hs).
        by econstructor.
      * rewrite (removed_mutation_failure _ _ _ _ _ Hsome Ht Hr Hs).
        by econstructor.
  - rewrite (removed_short_circuit _ _ _ Hin). by constructor.
Qed.

Lemma diff_step_cases g (old new : FeatureStatus) ret :
  (g_salt g = None ∧ diff_step g old new ret = inl (NameError "salt")) ∨
  (∃ cd, g_salt g = Some cd ∧
         diff_step g old new ret = inr (set_changes ret (cd old new))).
Proof. unfold diff_step. destruct (g_salt g); eauto. Qed.

(** X1.  [__virtual__] looks at one key only: adding or deleting any key
    of [__salt__] other than ['win_servermanager.install'] leaves its
    answer unchanged, so the module is also offered when the two other
    functions it calls are missing. *)
Theorem virtual_reads_only_the_install_key (keys : gset string) (k : string) :
  k ≠ "win_servermanager.install" →
  __virtual__ (keys ∪ {[k]}) = __virtual__ keys
  ∧ __virtual__ (keys ∖ {[k]}) = __virtual__ keys.
Proof.
  intros Hk. unfold __virtual__. split.
  - destruct (decide (_ ∈ keys ∪ _)) as [H1|H1],
      (decide (_ ∈ keys)) as [H2|H2]; try done.
    + apply elem_of_union in H1 as [H1|H1%elem_of_singleton]; [done|].
      by destruct Hk.
    + destruct H1. apply elem_of_union. by left.
  - destruct (decide (_ ∈ keys ∖ _)) as [H1|H1],
      (decide (_ ∈ keys)) as [H2|H2]; try done.
    + by apply elem_of_difference in H1 as [H1 _].
    + destruct H1. apply elem_of_difference. split; [done|].
      intros H3%elem_of_singleton. by destruct Hk.
Qed.

(** X2.  [force] matters only together with [recurse]: a run of
    [installed] with [force] is the run with [force and recurse] in its
    place, so [force=True, recurse=False] behaves as [force=False]. *)
Theorem installed_force_needs_recurse g name recurse force w :
  installed g name recurse force w =
  installed g name recurse (force && recurse) w.
Proof.
  assert (Hd : ∀ old ret,
    installed_decide old name recurse force ret =
    installed_decide old name recurse (force && recurse) ret).
  { intros old ret. unfold installed_decide.
    by destruct (decide _), force, recurse. }
  unfold installed, call_list_installed, mbind, M_bind, bind.
  destruct (list_installed _ w) as [old w1]; simpl.
  by rewrite Hd.
Qed.

(** X3.  Whatever the namespace and the machine, a report that
    [installed] or [removed] returns carries the name it was called with
    and never has [result = False]: a failed operation ends in an
    exception instead (line 70, line 125). *)
Theorem returned_report_is_never_false g name recurse force w :
  (∀ r, (installed g name recurse force w).1.1 = inr r →
        ret_name r = name ∧ ret_result r ≠ Some false)
  ∧
  (∀ r, (removed g name w).1.1 = inr r →
        ret_name r = name ∧ ret_result r ≠ Some false).
Proof.
  split; intros r.
  - destruct (installed_runs g name recurse force w)
      as [? ?|? ?|status w2 ? ? ? ?|status w2 ? ? ? ?]; simpl.
    + by intros [= <-].
    + by intros [= <-].
    + destruct (diff_step_cases g (before (g___salt__ g) w)
                  (before (g___salt__ g) w2)
                  (mkRet name (Some true) ∅
                     (install_comment (before (g___salt__ g) w) name recurse)))
        as [[_ ->]|(cd & _ & ->)]; [done|]. by intros [= <-].
    + done.
  - destruct (removed_runs g name w)
      as [?|? ?|status w2 ? ? ? ?|status w2 ? ? ? ?]; simpl.
    + by intros [= <-].
    + by intros [= <-].
    + destruct (diff_step_cases g (before (g___salt__ g) w)
                  (before (g___salt__ g) w2)
                  (mkRet name (Some true) ∅ (name +:+ " will be removed")))
        as [[_ ->]|(cd & _ & ->)]; [done|]. by intros [= <-].
    + done.
Qed.

(** X4.  Provided the calls on the execution module return (each
    [list_installed] a snapshot, the mutating call an operation result),
    an exception that leaves [installed] or [removed] comes after the
    mutating call, with dry-run off, and is [KeyError('feature')] when
    the operation reported failure, [NameError('salt')] in a namespace
    that does not bind [salt] when it reported success. *)
Theorem own_exceptions_follow_the_mutation
    g name recurse force w old w1 :
  list_installed (g___salt__ g) w = (old, w1) →
  (∀ status w2 new w3 e,
     install (g___salt__ g) name recurse w1 = (status, w2) →
     list_installed (g___salt__ g) w2 = (new, w3) →
     (installed g name recurse force w).1.1 = inl e →
     g___opts___test g = false
     ∧ (old !! name = None ∨ (force = true ∧ recurse = true))
     ∧ ((Success status = false ∧ e = KeyError "feature"
         ∧ (installed g name recurse force w).2 =
             [CallListInstalled; CallInstall name recurse])
        ∨ (Success status = true ∧ g_salt g = None ∧ e = NameError "salt"
           ∧ (installed g name recurse force w).2 =
               [CallListInstalled; CallInstall name recurse;
                CallListInstalled])))
  ∧
  (∀ status w2 new w3 e,
     remove (g___salt__ g) name w1 = (status, w2) →
     list_installed (g___salt__ g) w2 = (new, w3) →
     (removed g name w).1.1 = inl e →
     g___opts___test g = false
     ∧ is_Some (old !! name)
     ∧ ((Success status = false ∧ e = KeyError "feature"
         ∧ (removed g name w).2 = [CallListInstalled; CallRemove name])
        ∨ (Success status = true ∧ g_salt g = None ∧ e = NameError "salt"
           ∧ (removed g name w).2 =
               [CallListInstalled; CallRemove name; CallListInstalled]))).
Proof.
  intros Hread.
  assert (Hb : before (g___salt__ g) w = old)
    by (unfold before; by rewrite Hread).
  assert (Ha : after_read (g___salt__ g) w = w1)
    by (unfold after_read; by rewrite Hread).
  split; intros status w2 new w3 e Hm _.
  - destruct (installed_runs g name recurse force w)
      as [? ?|? ?|status' w2' Hw Ht Hi Hs|status' w2' Hw Ht Hi Hs];
      simpl; try done;
      rewrite Ha, Hm in Hi; injection Hi as <- <-;
      rewrite Hb in Hw; apply install_wanted_spec in Hw.
    + destruct (diff_step_cases g (before (g___salt__ g) w)
                  (before (g___salt__ g) w2)
                  (mkRet name (Some true) ∅
                     (install_comment (before (g___salt__ g) w) name recurse)))
        as [[Hn ->]|(cd & _ & ->)]; [|done].
      intros [= <-]. do 2 (split; [done|]). by right.
    + intros [= <-]. do 2 (split; [done|]). by left.
  - destruct (removed_runs g name w)
      as [?|? ?|status' w2' Hin Ht Hr Hs|status' w2' Hin Ht Hr Hs];
      simpl; try done;
      rewrite Ha, Hm in Hr; injection Hr as <- <-;
      rewrite Hb in Hin.
    + destruct (diff_step_cases g (before (g___salt__ g) w)
                  (before (g___salt__ g) w2)
                  (mkRet name (Some true) ∅ (name +:+ " will be removed")))
        as [[Hn ->]|(cd & _ & ->)]; [|done].
      intros [= <-]. do 2 (split; [done|]). by right.
    + intros [= <-]. do 2 (split; [done|]). by left.
Qed.

(** X5.  In test mode, once the [list_installed] call has returned its
    snapshot, both functions return a report without placing any other
    call: the machine is as the read left it, [changes] is empty and
    [result] is [None] or [True]. *)
Theorem test_mode_returns_after_the_read g name recurse force w old w1 :
  g___opts___test g = true →
  list_installed (g___salt__ g) w = (old, w1) →
  (∃ r, installed g name recurse force w = (inr r, w1, [CallListInstalled])
        ∧ ret_changes r = ∅
        ∧ (ret_result r = None ∨ ret_result r = Some true))
  ∧
  (∃ r, removed g name w = (inr r, w1, [CallListInstalled])
        ∧ ret_changes r = ∅
        ∧ (ret_result r = None ∨ ret_result r = Some true)).
Proof.
  intros Ht Hread.
  assert (Ha : after_read (g___salt__ g) w = w1)
    by (unfold after_read; by rewrite Hread).
  rewrite <- Ha. split.
  - destruct (installed_runs g name recurse force w)
      as [? ?|? ?|status w2 ? Hf ? ?|status w2 ? Hf ? ?];
      try (rewrite Ht in Hf; discriminate); eauto 6.
  - destruct (removed_runs g name w)
      as [?|? ?|status w2 ? Hf ? ?|status w2 ? Hf ? ?];
      try (rewrite Ht in Hf; discriminate); eauto 6.
Qed.

(** X6.  The dry run tells what the real run would attempt: on the same
    machine and arguments, the test-mode report has [result = None]
    exactly when the run with test mode off places a mutating call, and
    [result = True] exactly when it places none. *)
Theorem dry_run_predicts_the_mutation tbl salt name recurse force w :
  (∃ r,
     (installed (mkGlobals tbl true salt) name recurse force w).1.1 = inr r
     ∧ (ret_result r = None ↔
        mutations
          (installed (mkGlobals tbl false salt) name recurse force w).2 = 1)
     ∧ (ret_result r = Some true ↔
        mutations
          (installed (mkGlobals tbl false salt) name recurse force w).2 = 0))
  ∧
  (∃ r,
     (removed (mkGlobals tbl true salt) name w).1.1 = inr r
     ∧ (ret_result r = None ↔
        mutations (removed (mkGlobals tbl false salt) name w).2 = 1)
     ∧ (ret_result r = Some true ↔
        mutations (removed (mkGlobals tbl false salt) name w).2 = 0)).
Proof.
  split.
  - destruct (install_wanted (before tbl w) name recurse force) eqn:Hw.
    + rewrite (installed_dry_run (mkGlobals tbl true salt)
                 name recurse force w Hw eq_refl).
      eexists. split; [reflexivity|]. simpl.
      destruct (install tbl name recurse (after_read tbl w))
        as [status w2] eqn:Hi.
      destruct (Success status) eqn:Hs.
      * rewrite (installed_mutation_success (mkGlobals tbl false salt)
                   name recurse force w status w2 Hw eq_refl Hi Hs).
        by split.
      * rewrite (installed_mutation_failure (mkGlobals tbl false salt)
                   name recurse force w status w2 Hw eq_refl Hi Hs).
        by split.
    + apply install_wanted_false in Hw as [Hin Hfr].
      rewrite (installed_short_circuit (mkGlobals tbl true salt)
                 name recurse force w Hin Hfr).
      rewrite (installed_short_circuit (mkGlobals tbl false salt)
                 name recurse force w Hin Hfr).
      eexists. split; [reflexivity|]. by split.
  - destruct (before tbl w !! name) as [dn|] eqn:Hl.
    + assert (Hin : is_Some (before tbl w !! name)) by eauto.
      rewrite (removed_dry_run (mkGlobals tbl true salt) name w Hin eq_refl).
      eexists. split; [reflexivity|]. simpl.
      destruct (remove tbl name (after_read tbl w)) as [status w2] eqn:Hr.
      destruct (Success status) eqn:Hs.
      * rewrite (removed_mutation_success (mkGlobals tbl false salt)
                   name w status w2 Hin eq_refl Hr Hs).
        by split.
      * rewrite (removed_mutation_failure (mkGlobals tbl false salt)
                   name w status w2 Hin eq_refl Hr Hs).
        by split.
    + rewrite (removed_short_circuit (mkGlobals tbl true salt) name w Hl).
      rewrite (removed_short_circuit (mkGlobals tbl false salt) name w Hl).
      eexists. split; [reflexivity|]. by split.
Qed.

(** X7.  When [list_installed] only reads (it returns the machine as it
    found it), a run that places no mutating call leaves the machine
    exactly as it was: the two functions change it through [install] and
    [remove] alone. *)
Theorem no_mutating_call_no_change g name recurse force w :
  (∀ w0, (list_installed (g___salt__ g) w0).2 = w0) →
  (mutations (installed g name recurse force w).2 = 0 →
   (installed g name recurse force w).1.2 = w)
  ∧
  (mutations (removed g name w).2 = 0 → (removed g name w).1.2 = w).
Proof.
  intros Hread. split.
  - destruct (installed_runs g name recurse force w)
      as [? ?|? ?|status w2 ? ? ? ?|status w2 ? ? ? ?]; simpl;
      try done; intros _; apply Hread.
  - destruct (removed_runs g name w)
      as [?|? ?|status w2 ? ? ? ?|status w2 ? ? ? ?]; simpl;
      try done; intros _; apply Hread.
Qed.

(** X8.  The calls of a run, in order: always [list_installed] first;
    then at most the one mutating call, [install(name, recurse)] for
    [installed] and [remove(name)] for [removed], with the arguments as
    received; then at most one more [list_installed].  [installed] never
    calls [remove] and [removed] never calls [install]. *)
Theorem calls_are_read_mutate_read g name recurse force w :
  ((installed g name recurse force w).2 = [CallListInstalled]
   ∨ (installed g name recurse force w).2 =
       [CallListInstalled; CallInstall name recurse]
   ∨ (installed g name recurse force w).2 =
       [CallListInstalled; CallInstall name recurse; CallListInstalled])
  ∧
  ((removed g name w).2 = [CallListInstalled]
   ∨ (removed g name w).2 = [CallListInstalled; CallRemove name]
   ∨ (removed g name w).2 =
       [CallListInstalled; CallRemove name; CallListInstalled]).
Proof.
  split.
  - destruct (installed_runs g name recurse force w); simpl; eauto.
  - destruct (removed_runs g name w); simpl; eauto.
Qed.

(** X9.  In a namespace that binds [salt], an installation that reports
    success returns [result = True] with [changes] equal to
    [compare_dicts(old, new)] and nothing else: the operation result
    stored under ['feature'] at line 72 is overwritten at line 75 whatever
    the display name says, and the comment still reads as before the
    installation. *)
Theorem bound_salt_reports_only_the_diff
    g compare_dicts name recurse force w status w2 :
  g_salt g = Some compare_dicts →
  g___opts___test g = false →
  before (g___salt__ g) w !! name = None
  ∨ (force = true ∧ recurse = true) →
  install (g___salt__ g) name recurse (after_read (g___salt__ g) w)
    = (status, w2) →
  Success status = true →
  installed g name recurse force w =
    (inr (mkRet name (Some true)
            (compare_dicts (before (g___salt__ g) w)
               (before (g___salt__ g) w2))
            (if decide (before (g___salt__ g) w !! name = None)
             then name +:+ " will be installed recurse=" +:+ py_bool recurse
             else name
                    +:+ " already installed but might install sub-features")),
     after_read (g___salt__ g) w2,
     [CallListInstalled; CallInstall name recurse; CallListInstalled]).
Proof.
  intros Hs Ht Hw%install_wanted_spec Hi Hok.
  rewrite (installed_mutation_success g name recurse force w status w2
             Hw Ht Hi Hok).
  unfold diff_step. by rewrite Hs.
Qed.

(** X10.  Two calls of [removed name] in succession: whatever the first
    call did, if the status reader no longer lists [name], the second
    call returns [result = True] with empty [changes] and the comment
    "The feature <name> is not installed", and places no mutating call. *)
Theorem removed_twice_is_already_satisfied g name w0 out1 w1 log1 :
  removed g name w0 = (out1, w1, log1) →
  before (g___salt__ g) w1 !! name = None →
  ∃ w2 log2,
    removed g name w1 =
      (inr (mkRet name (Some true) ∅
              ("The feature " +:+ name +:+ " is not installed")),
       w2, log2)
    ∧ mutations log2 = 0.
Proof.
  intros _ Hout. eexists _, _. split.
  - by apply removed_short_circuit.
  - reflexivity.
Qed.

Lemma installed_decide_changes (old : FeatureStatus) name recurse force
    ret0 ret :
  installed_decide old name recurse force ret0 = inl ret →
  ret_changes ret = ret_changes ret0.
Proof.
  unfold installed_decide.
  destruct (decide _); [by intros [= <-]|].
  destruct (force && recurse); [by intros [= <-] | done].
Qed.

(** X11.  Of the operation result, [installed] uses the [Success] flag
    and nothing else: two execution modules that read alike, act on the
    machine alike and report the same [Success] give the same run, even
    if their results differ in [DisplayName] or [ExitCode].  Neither
    field reaches the report, the comment or the exception. *)
Theorem installed_reads_only_Success g g' name recurse force w :
  (∀ w0, list_installed (g___salt__ g') w0
         = list_installed (g___salt__ g) w0) →
  (∀ n r w0,
     (install (g___salt__ g') n r w0).2 = (install (g___salt__ g) n r w0).2
     ∧ Success (install (g___salt__ g') n r w0).1
       = Success (install (g___salt__ g) n r w0).1) →
  g___opts___test g' = g___opts___test g →
  g_salt g' = g_salt g →
  installed g' name recurse force w = installed g name recurse force w.
Proof.
  intros Hread Hinst Ht Hs.
  unfold installed, call_list_installed, call_install,
    salt_utils_compare_dicts, changes_feature_ExitCode,
    mbind, M_bind, bind, mret, M_ret, pure, raise.
  rewrite Hread, Ht, Hs.
  destruct (list_installed (g___salt__ g) w) as [old w1]; simpl.
  destruct (installed_decide _ _ _ _ _) as [ret|ret] eqn:Hd; [|done].
  apply installed_decide_changes in Hd. simpl in Hd.
  destruct (g___opts___test g); [done|].
  destruct (Hinst name recurse w1) as [Hw HS].
  destruct (install (g___salt__ g') name recurse w1) as [st' w2'],
    (install (g___salt__ g) name recurse w1) as [st w2]; simpl in *.
  subst w2'. rewrite HS.
  destruct (Success st); simpl.
  - rewrite Hread.
    destruct (list_installed (g___salt__ g) w2) as [new w3]; simpl.
    destruct (g_salt g); [|done].
    by destruct (negb (py_in _ (DisplayName st'))),
      (negb (py_in _ (DisplayName st))).
  - by rewrite Hd, lookup_empty.
Qed.

(** X13.  The test-mode comment names the pending action: for a missing
    feature "<name> will be installed recurse=<True|False>", for a
    present one with [force] and [recurse] "<name> already installed but
    might install sub-features", and for [removed] on a present feature
    "<name> will be removed". *)
Theorem dry_run_comment_names_the_action g name recurse force w :
  g___opts___test g = true →
  (before (g___salt__ g) w !! name = None →
   ∃ r, (installed g name recurse force w).1.1 = inr r ∧
        ret_comment r =
          name +:+ " will be installed recurse=" +:+ py_bool recurse)
  ∧
  (is_Some (before (g___salt__ g) w !! name) →
   force = true → recurse = true →
   ∃ r, (installed g name recurse force w).1.1 = inr r ∧
        ret_comment r =
          name +:+ " already installed but might install sub-features")
  ∧
  (is_Some (before (g___salt__ g) w !! name) →
   ∃ r, (removed g name w).1.1 = inr r ∧
        ret_comment r = name +:+ " will be removed").
Proof.
  intros Ht. repeat split.
  - intros Hout.
    rewrite (installed_dry_run g name recurse force w); [|by apply
      install_wanted_absent|done].
    eexists. split; [reflexivity|]. simpl.
    unfold install_comment. by destruct (decide _).
  - intros [dn Hin] -> ->.
    rewrite (installed_dry_run g name true true w);
      [|by apply install_wanted_spec; right|done].
    eexists. split; [reflexivity|]. simpl.
    unfold install_comment. destruct (decide _) as [E|_]; [|done].
    by rewrite Hin in E.
  - intros Hin. rewrite (removed_dry_run g name w Hin Ht).
    eexists. by split.
Qed.

End Runs.

(** [String.prefix a s] holds exactly when [s] starts with [a]. *)
Lemma prefix_spec (a s : string) :
  String.prefix a s = true ↔ ∃ post, s = a +:+ post.
Proof.
  revert s. induction a as [|c a IH]; intros [|d s]; simpl.
  - split; [intros _; by exists "" | done].
  - split; [intros _; by exists (String d s) | done].
  - split; [done | by intros [? ?]].
  - destruct (Ascii.ascii_dec c d) as [->|Hne].
    + rewrite IH. split.
      * intros [post ->]. by exists post.
      * intros [post [= ->]]. by exists post.
    + split; [done|]. intros [post [= -> _]]. done.
Qed.

(** X12.  [py_in] is Python's substring test: [py_in sub s] holds exactly
    when [s] is some text, then [sub], then some text. *)
Theorem py_in_is_substring (sub s : string) :
  py_in sub s = true ↔ ∃ pre post, s = pre +:+ sub +:+ post.
Proof.
  induction s as [|c s IH]; cbn [py_in].
  - rewrite orb_false_r, prefix_spec. split.
    + intros [post E]. by exists "", post.
    + intros ([|? pre] & post & E); simpl in E; [by exists post | done].
  - rewrite orb_true_iff, prefix_spec, IH. split.
    + intros [[post E] | (pre & post & ->)].
      * by exists "", post.
      * by exists (String c pre), post.
    + intros ([|d pre] & post & E); simpl in E.
      * left. by exists post.
      * right. injection E as -> ->. by exists pre, post.
Qed.

(** ** Further runs on the simulated feature manager *)

Lemma virtual_reads_only_the_install_key_witness :
  __virtual__ (full_keys ∪ {["win_servermanager.list_installed"]})
    = __virtual__ full_keys
  ∧ __virtual__ (full_keys ∖ {["win_servermanager.list_installed"]})
    = __virtual__ full_keys.
Proof.
  apply (virtual_reads_only_the_install_key
           full_keys "win_servermanager.list_installed").
  discriminate.
Defined.

Lemma own_exceptions_follow_the_mutation_witness :
  (g___opts___test (module_globals (sim_table iis_failed) false) = false
   ∧ (with_iis !! web = None ∨ (true = true ∧ true = true))
   ∧ ((Success iis_failed = false
       ∧ KeyError "feature" = KeyError "feature"
       ∧ (installed (module_globals (sim_table iis_failed) false)
            web true true with_iis).2 =
           [CallListInstalled; CallInstall web true])
      ∨ (Success iis_failed = true
         ∧ g_salt (module_globals (sim_table iis_failed) false) = None
         ∧ KeyError "feature" = NameError "salt"
         ∧ (installed (module_globals (sim_table iis_failed) false)
              web true true with_iis).2 =
             [CallListInstalled; CallInstall web true; CallListInstalled])))
  ∧
  (g___opts___test (module_globals (sim_table iis_failed) false) = false
   ∧ is_Some (with_iis !! web)
   ∧ ((Success iis_failed = false
       ∧ KeyError "feature" = KeyError "feature"
       ∧ (removed (module_globals (sim_table iis_failed) false)
            web with_iis).2 = [CallListInstalled; CallRemove web])
      ∨ (Success iis_failed = true
         ∧ g_salt (module_globals (sim_table iis_failed) false) = None
         ∧ KeyError "feature" = NameError "salt"
         ∧ (removed (module_globals (sim_table iis_failed) false)
              web with_iis).2 =
             [CallListInstalled; CallRemove web; CallListInstalled]))).
Proof.
  destruct (own_exceptions_follow_the_mutation
              (module_globals (sim_table iis_failed) false)
              web true true with_iis with_iis with_iis eq_refl)
    as [Hi Hr].
  split.
  - apply (Hi iis_failed with_iis with_iis with_iis (KeyError "feature")).
    + reflexivity.
    + reflexivity.
    + vm_compute. reflexivity.
  - apply (Hr iis_failed with_iis with_iis with_iis (KeyError "feature")).
    + reflexivity.
    + reflexivity.
    + vm_compute. reflexivity.
Defined.

Lemma test_mode_returns_after_the_read_witness :
  (∃ r, installed (module_globals (sim_table iis_failed) true)
          web true true with_iis =
          (inr r, with_iis, [CallListInstalled])
        ∧ ret_changes r = ∅
        ∧ (ret_result r = None ∨ ret_result r = Some true))
  ∧
  (∃ r, removed (module_globals (sim_table iis_failed) true) web with_iis =
          (inr r, with_iis, [CallListInstalled])
        ∧ ret_changes r = ∅
        ∧ (ret_result r = None ∨ ret_result r = Some true)).
Proof.
  apply (test_mode_returns_after_the_read
           (module_globals (sim_table iis_failed) true) web true true
           with_iis with_iis with_iis eq_refl eq_refl).
Defined.

Lemma no_mutating_call_no_change_witness :
  (mutations
     (installed (module_globals (sim_table iis_ok) true)
        web false false ∅).2 = 0 →
   (installed (module_globals (sim_table iis_ok) true)
      web false false ∅).1.2 = ∅)
  ∧
  (mutations
     (removed (module_globals (sim_table iis_ok) true) web ∅).2 = 0 →
   (removed (module_globals (sim_table iis_ok) true) web ∅).1.2 = ∅).
Proof.
  apply (no_mutating_call_no_change
           (module_globals (sim_table iis_ok) true) web false false ∅).
  intros w0. reflexivity.
Defined.

Lemma bound_salt_reports_only_the_diff_witness :
  installed (mkGlobals (sim_table iis_ok) false (Some sim_compare))
    web false false ∅ =
    (inr (mkRet web (Some true)
            (sim_compare ∅ with_iis)
            "Web-Server will be installed recurse=False"),
     with_iis,
     [CallListInstalled; CallInstall web false; CallListInstalled])
  ∧ sim_compare ∅ with_iis !! "feature" = None
  ∧ sim_compare ∅ with_iis !! web = Some (Delta "" "Web Server (IIS)").
Proof.
  split; [|split; vm_compute; reflexivity].
  assert (H := bound_salt_reports_only_the_diff
                 (mkGlobals (sim_table iis_ok) false (Some sim_compare))
                 sim_compare web false false ∅ iis_ok with_iis
                 eq_refl eq_refl (or_introl eq_refl) eq_refl eq_refl).
  vm_compute in H. vm_compute. exact H.
Defined.

Lemma removed_twice_is_already_satisfied_witness :
  removed (module_globals (sim_table iis_ok) false) web with_iis =
    (inl (NameError "salt"), ∅,
     [CallListInstalled; CallRemove web; CallListInstalled])
  ∧
  ∃ w2 log2,
    removed (module_globals (sim_table iis_ok) false) web ∅ =
      (inr (mkRet web (Some true) ∅
              "The feature Web-Server is not installed"), w2, log2)
    ∧ mutations log2 = 0.
Proof.
  assert (H1 : removed (module_globals (sim_table iis_ok) false)
                 web with_iis =
               (inl (NameError "salt"), ∅,
                [CallListInstalled; CallRemove web; CallListInstalled]))
    by (vm_compute; reflexivity).
  split; [exact H1|].
  apply (removed_twice_is_already_satisfied
           (module_globals (sim_table iis_ok) false) web
           with_iis _ ∅ _ H1).
  reflexivity.
Defined.

Lemma installed_reads_only_Success_witness :
  installed (module_globals (sim_table iis_reboot) false)
    web false false ∅ =
  installed (module_globals (sim_table iis_ok) false)
    web false false ∅.
Proof.
  apply (installed_reads_only_Success
           (module_globals (sim_table iis_ok) false)
           (module_globals (sim_table iis_reboot) false)
           web false false ∅).
  - intros w0. reflexivity.
  - intros n r w0. split; reflexivity.
  - reflexivity.
  - reflexivity.
Defined.

Lemma dry_run_comment_names_the_action_witness :
  (∃ r, (installed (module_globals (sim_table iis_ok) true)
           web true false ∅).1.1 = inr r ∧
        ret_comment r = "Web-Server will be installed recurse=True")
  ∧
  (∃ r, (installed (module_globals (sim_table iis_ok) true)
           web true true with_iis).1.1 = inr r ∧
        ret_comment r =
          "Web-Server already installed but might install sub-features")
  ∧
  (∃ r, (removed (module_globals (sim_table iis_ok) true)
           web with_iis).1.1 = inr r ∧
        ret_comment r = "Web-Server will be removed").
Proof.
  destruct (dry_run_comment_names_the_action
              (module_globals (sim_table iis_ok) true) web true false ∅
              eq_refl) as (Ha & _ & _).
  destruct (dry_run_comment_names_the_action
              (module_globals (sim_table iis_ok) true) web true true with_iis
              eq_refl) as (_ & Hb & Hc).
  split; [|split].
  - apply Ha. reflexivity.
  - apply Hb; [exists "Web Server (IIS)"|..]; reflexivity.
  - apply Hc. exists "Web Server (IIS)". reflexivity.
Defined.

End WinServermanager.
